(** * Xiaomi Mi Smart Pedestal Fan DMaker 1C: the MIoT adapter [fan_1c.py]

    A shallow embedding of [custom_components/xiaomi_miio_fan/fan_1c.py]:
    the static property table [_MAPPING], the status container
    [FanStatus1C] with its derived accessors, and the device class [Fan1C]
    whose methods talk to the device through the two entry points it
    inherits from [MiotDevice] ([get_properties_for_mapping] and
    [set_property]).  The inherited transport is an interface here; every
    call made through it is recorded in a trace, so that the number and the
    content of the calls of a method can be stated. *)

From Stdlib Require Import ZArith String List Lia.
From stdpp Require Import base option list strings gmap fin_maps pretty.

Local Open Scope string_scope.
Local Open Scope Z_scope.

(** ** Python values and exceptions *)

(** The values that travel between the adapter and the device: [None],
    booleans, integers and strings. *)
Inductive pyval : Type :=
  | VNone
  | VBool (b : bool)
  | VInt (z : Z)
  | VStr (s : string).

#[export] Instance pyval_eq_dec : EqDecision pyval.
Proof. solve_decision. Defined.

(** Python's truth value of an object ([if x], [x if c else y]). *)
Definition truthy (v : pyval) : bool :=
  match v with
  | VNone => false
  | VBool b => b
  | VInt z => negb (z =? 0)
  | VStr s => negb (String.eqb s "")
  end.

(** The integer a value stands for: [bool] is a subclass of [int], with
    [False] being 0 and [True] being 1. *)
Definition as_int (v : pyval) : option Z :=
  match v with
  | VBool b => Some (Z.b2z b)
  | VInt z => Some z
  | VNone | VStr _ => None
  end.

(** Python's [==] on these values. *)
Definition py_eq (a b : pyval) : bool :=
  match as_int a, as_int b with
  | Some x, Some y => x =? y
  | None, None =>
      match a, b with
      | VNone, VNone => true
      | VStr s, VStr t => String.eqb s t
      | _, _ => false
      end
  | _, _ => false
  end.

(** [x in (a, b, ...)] for an integer [x] and a tuple of integers. *)
Definition py_in (x : Z) (tuple : list Z) : bool :=
  existsb (Z.eqb x) tuple.

(** ["%s" % z] for an integer. *)
Definition py_str (z : Z) : string := pretty z.

(** [str(v)], which is what ["%s" % v] prints: a string prints as itself. *)
Definition py_str_of (v : pyval) : string :=
  match v with
  | VNone => "None"
  | VBool true => "True"
  | VBool false => "False"
  | VInt z => py_str z
  | VStr s => s
  end.

(** The exceptions the module can see: a missing dictionary key, the
    adapter's own [FanException], and whatever the transport raises. *)
Inductive exn : Type :=
  | KeyError (key : string)
  | FanException (msg : string)
  | DeviceException (msg : string).

Inductive result (A : Type) : Type :=
  | Ok (a : A)
  | Raise (e : exn).
Arguments Ok {A} a.
Arguments Raise {A} e.

Definition rbind {A B} (r : result A) (k : A -> result B) : result B :=
  match r with
  | Ok a => k a
  | Raise e => Raise e
  end.

(** [d[k]] on a dictionary with string keys. *)
Definition getitem (d : gmap string pyval) (k : string) : result pyval :=
  match d !! k with
  | Some v => Ok v
  | None => Raise (KeyError k)
  end.

(** ** The property table *)

Record siid_piid : Type := SP { siid : Z; piid : Z }.

Definition _MAPPING : list (string * siid_piid) :=
  [ ("power", SP 2 1);
    ("fan_level", SP 2 2);
    ("child_lock", SP 3 1);
    ("swing_mode", SP 2 3);
    ("power_off_time", SP 2 10);
    ("buzzer", SP 2 11);
    ("light", SP 2 12);
    ("mode", SP 2 7) ].

(** [mapping[k]] and [mapping.keys()]. *)
Fixpoint mapping_get (m : list (string * siid_piid)) (k : string) : option siid_piid :=
  match m with
  | [] => None
  | (k', sp) :: rest => if String.eqb k' k then Some sp else mapping_get rest k
  end.

Definition mapping_keys (m : list (string * siid_piid)) : list string :=
  map fst m.

(** [miio.fan.OperationMode]. *)
Inductive OperationMode : Type := Normal | Nature.

(** [str(m)] for a member of the enumeration: the class and the member. *)
Definition py_str_of_mode (m : OperationMode) : string :=
  match m with
  | Normal => "OperationMode.Normal"
  | Nature => "OperationMode.Nature"
  end.

(** ** The status container *)

Module FanStatus1C.

Record t : Type := mk { data : gmap string pyval }.

Definition power (self : t) : result string :=
  rbind (getitem (data self) "power")
        (fun v => Ok (if truthy v then "on" else "off")).

Definition is_on (self : t) : result pyval :=
  getitem (data self) "power".

Definition mode (self : t) : result OperationMode :=
  rbind (getitem (data self) "mode")
        (fun v => Ok (if py_eq v (VInt 1) then Nature else Normal)).

Definition speed (self : t) : result pyval :=
  getitem (data self) "fan_level".

Definition oscillate (self : t) : result pyval :=
  getitem (data self) "swing_mode".

Definition delay_off_countdown (self : t) : result pyval :=
  getitem (data self) "power_off_time".

Definition led (self : t) : result pyval :=
  getitem (data self) "light".

Definition buzzer (self : t) : result pyval :=
  getitem (data self) "buzzer".

Definition child_lock (self : t) : result pyval :=
  getitem (data self) "child_lock".

(** [__repr__]: the tuple is evaluated from left to right, so the first
    accessor that misses its key decides the exception. *)
Definition __repr__ (self : t) : result string :=
  rbind (power self) (fun v_power =>
  rbind (mode self) (fun v_mode =>
  rbind (speed self) (fun v_speed =>
  rbind (oscillate self) (fun v_oscillate =>
  rbind (led self) (fun v_led =>
  rbind (buzzer self) (fun v_buzzer =>
  rbind (child_lock self) (fun v_child_lock =>
  rbind (delay_off_countdown self) (fun v_delay =>
  Ok ("<FanStatus power=" +:+ v_power +:+ ", "
      +:+ "mode=" +:+ py_str_of_mode v_mode +:+ ", "
      +:+ "speed=" +:+ py_str_of v_speed +:+ ", "
      +:+ "oscillate=" +:+ py_str_of v_oscillate +:+ ", "
      +:+ "led=" +:+ py_str_of v_led +:+ ", "
      +:+ "buzzer=" +:+ py_str_of v_buzzer +:+ ", "
      +:+ "child_lock=" +:+ py_str_of v_child_lock +:+ ", "
      +:+ "delay_off_countdown=" +:+ py_str_of v_delay +:+ ">"))))))))).

Definition __json__ (self : t) : gmap string pyval := data self.

End FanStatus1C.

(** ** The transport inherited from [MiotDevice] *)

(** One entry of the answer to a batched property query.  The loop of
    [status] reads the value of an entry only when its code is 0, so for
    an entry that failed the field [value] is of no consequence. *)
Record prop : Type := Prop_ { did : string; value : pyval; code : Z }.

#[export] Instance prop_eq_dec : EqDecision prop.
Proof. solve_decision. Defined.

(** A call that reached the transport. *)
Inductive call : Type :=
  | CGet (mapping : list (string * siid_piid))
  | CSet (key : string) (v : pyval).

(** What a device does with the two requests; [D] is the state of the
    device and of the session with it.  Both may fail. *)
Class MiotDevice (D : Type) : Type := {
  send_get : list (string * siid_piid) -> D -> result (list prop) * D;
  send_set : list (string * siid_piid) -> string -> pyval -> D -> result pyval * D
}.

Record world (D : Type) : Type := World { trace : list call; device : D }.
Arguments World {D} trace device.
Arguments trace {D} w.
Arguments device {D} w.

(** Computations that may call the transport and may raise. *)
Definition M (D A : Type) : Type := world D -> result A * world D.

Definition ret {D A} (a : A) : M D A := fun w => (Ok a, w).

Definition raise {D A} (e : exn) : M D A := fun w => (Raise e, w).

Definition bind {D A B} (c : M D A) (k : A -> M D B) : M D B :=
  fun w =>
    match c w with
    | (Ok a, w') => k a w'
    | (Raise e, w') => (Raise e, w')
    end.

Notation "c >>= k" := (bind c k) (at level 50, left associativity).

(** ** The device class *)

Module Fan1C.

(** The fields [MiotDevice.__init__] receives. *)
Record t : Type := mk {
  mapping : list (string * siid_piid);
  ip : option string;
  token : option string;
  start_id : Z;
  debug : Z;
  lazy_discover : bool
}.

(** [__init__]: the table handed to the base class is [_MAPPING]. *)
Definition __init__ (ip token : option string) (start_id debug : Z)
    (lazy_discover : bool) : t :=
  mk _MAPPING ip token start_id debug lazy_discover.

Section Methods.
Context {D : Type} `{MiotDevice D}.

(** The two inherited entry points: each hands the request to the
    transport and leaves one entry in the trace. *)
Definition get_properties_for_mapping (self : t) : M D (list prop) :=
  fun w =>
    let (r, d') := send_get (mapping self) (device w) in
    (r, World (trace w ++ [CGet (mapping self)]) d').

Definition set_property (self : t) (key : string) (v : pyval) : M D pyval :=
  fun w =>
    let (r, d') := send_set (mapping self) key v (device w) in
    (r, World (trace w ++ [CSet key v]) d').

(** The body of the loop of [status]:
    [data[prop["did"]] = prop["value"] if prop["code"] == 0 else None]. *)
Definition status_step (data : gmap string pyval) (p : prop) : gmap string pyval :=
  <[did p := if code p =? 0 then value p else VNone]> data.

Definition status (self : t) : M D FanStatus1C.t :=
  get_properties_for_mapping self >>= fun props =>
  ret (FanStatus1C.mk (foldl status_step ∅ props)).

Definition on (self : t) : M D pyval :=
  set_property self "power" (VBool true).

Definition off (self : t) : M D pyval :=
  set_property self "power" (VBool false).

Definition set_direct_speed (self : t) (speed : Z) : M D pyval :=
  if negb (py_in speed [1; 2; 3])
  then raise (FanException ("Invalid speed: " +:+ py_str speed))
  else set_property self "fan_level" (VInt speed).

Definition set_oscillate (self : t) (oscillate : bool) : M D pyval :=
  set_property self "swing_mode" (VBool oscillate).

Definition set_buzzer (self : t) (buzzer : bool) : M D pyval :=
  set_property self "buzzer" (VBool buzzer).

Definition set_child_lock (self : t) (lock : bool) : M D pyval :=
  set_property self "child_lock" (VBool lock).

Definition set_natural_mode (self : t) (natural : bool) : M D pyval :=
  set_property self "mode" (VInt (if natural then 1 else 0)).

Definition delay_off (self : t) (seconds : Z) : M D pyval :=
  if seconds <? 0
  then raise (FanException
                ("Invalid value for a delayed turn off: " +:+ py_str seconds))
  else set_property self "power_off_time" (VInt seconds).

End Methods.

End Fan1C.

(** ** The setters as one family *)

(** A setter of [Fan1C] together with its argument. *)
Inductive setter : Type :=
  | On
  | Off
  | SetDirectSpeed (speed : Z)
  | SetOscillate (oscillate : bool)
  | SetBuzzer (buzzer : bool)
  | SetChildLock (lock : bool)
  | SetNaturalMode (natural : bool)
  | DelayOff (seconds : Z).

Definition run_setter {D : Type} `{MiotDevice D} (self : Fan1C.t) (op : setter) : M D pyval :=
  match op with
  | On => Fan1C.on self
  | Off => Fan1C.off self
  | SetDirectSpeed speed => Fan1C.set_direct_speed self speed
  | SetOscillate b => Fan1C.set_oscillate self b
  | SetBuzzer b => Fan1C.set_buzzer self b
  | SetChildLock b => Fan1C.set_child_lock self b
  | SetNaturalMode b => Fan1C.set_natural_mode self b
  | DelayOff seconds => Fan1C.delay_off self seconds
  end.

(** The inputs the specification calls valid: a speed among 1, 2 and 3, a
    delay that is not negative; the other setters take any input. *)
Definition passes_validation (op : setter) : Prop :=
  match op with
  | SetDirectSpeed speed => speed = 1 \/ speed = 2 \/ speed = 3
  | DelayOff seconds => 0 <= seconds
  | _ => True
  end.

(** The calls a computation adds to the trace when run from [w]. *)
Definition calls_of {D A} (c : M D A) (w : world D) : list call :=
  drop (length (trace w)) (trace (snd (c w))).

(** ** A simulated device

    A device that stores what it is told and answers a query from its
    store; a property it has no value for is reported with the code
    [-4001] of the MIoT protocol.  It refuses a key that is not in the
    table, as the look-up [mapping[key]] of the base class does. *)
Definition sim_get (m : list (string * siid_piid)) (d : gmap string pyval)
    : result (list prop) * gmap string pyval :=
  (Ok (map (fun kv : string * siid_piid =>
              match d !! fst kv with
              | Some v => Prop_ (fst kv) v 0
              | None => Prop_ (fst kv) VNone (-4001)
              end) m), d).

Definition sim_set (m : list (string * siid_piid)) (key : string) (v : pyval)
    (d : gmap string pyval) : result pyval * gmap string pyval :=
  match mapping_get m key with
  | Some _ => (Ok (VStr "ok"), <[key := v]> d)
  | None => (Raise (KeyError key), d)
  end.

#[export] Instance sim_device : MiotDevice (gmap string pyval) :=
  {| send_get := sim_get; send_set := sim_set |}.

(** A device that is out of reach: every request fails. *)
#[export] Instance offline_device : MiotDevice unit :=
  {| send_get := fun _ d => (Raise (DeviceException "timeout"), d);
     send_set := fun _ _ _ d => (Raise (DeviceException "timeout"), d) |}.

(** A device that answers every query with the entries it was given, and
    acknowledges every write. *)
#[export] Instance scripted_device : MiotDevice (list prop) :=
  {| send_get := fun _ d => (Ok d, d);
     send_set := fun _ _ _ d => (Ok (VStr "ok"), d) |}.

Definition fan : Fan1C.t := Fan1C.__init__ None None 0 0 true.

(** The device of the round trip of the specification. *)
Definition round_trip_store : gmap string pyval :=
  list_to_map
    [ ("power", VInt 1); ("mode", VInt 1); ("fan_level", VInt 2);
      ("swing_mode", VInt 0); ("power_off_time", VInt 120);
      ("light", VInt 1); ("buzzer", VInt 0); ("child_lock", VInt 1) ].

(** What the device answers in the round trip of the specification: all
    eight properties, each with status code 0. *)
Definition round_trip_answer : list prop :=
  [ Prop_ "power" (VInt 1) 0; Prop_ "mode" (VInt 1) 0;
    Prop_ "fan_level" (VInt 2) 0; Prop_ "swing_mode" (VInt 0) 0;
    Prop_ "power_off_time" (VInt 120) 0; Prop_ "light" (VInt 1) 0;
    Prop_ "buzzer" (VInt 0) 0; Prop_ "child_lock" (VInt 1) 0 ].

(** The device of the partial failure of the specification: as in the
    round trip, but it has no value for [light]. *)
Definition light_failed_store : gmap string pyval :=
  delete "light" round_trip_store.

(** A result that is a value, not an exception. *)
Definition is_ok {A} (r : result A) : Prop :=
  match r with
  | Ok _ => True
  | Raise _ => False
  end.

(** The attribute names the specification lists, in the order of the table. *)
Definition attribute_names : list string :=
  [ "power"; "fan_level"; "child_lock"; "swing_mode"; "power_off_time";
    "buzzer"; "light"; "mode" ].

(** The snapshot [status] builds when the device has no value for any
    property: every entry comes back with a non-zero code. *)
Definition absent_snapshot : FanStatus1C.t :=
  match fst (Fan1C.status fan (World [] (∅ : gmap string pyval))) with
  | Ok snap => snap
  | Raise _ => FanStatus1C.mk ∅
  end.

(** The exception a result carries, if any. *)
Definition raised {A} (r : result A) : option exn :=
  match r with
  | Ok _ => None
  | Raise e => Some e
  end.

(** The nine accessors of a snapshot, each with the key it reads and with
    the exception it ends in, if any. *)
Definition accessor_outcomes (s : FanStatus1C.t) : list (string * option exn) :=
  [ ("power", raised (FanStatus1C.power s));
    ("power", raised (FanStatus1C.is_on s));
    ("mode", raised (FanStatus1C.mode s));
    ("fan_level", raised (FanStatus1C.speed s));
    ("swing_mode", raised (FanStatus1C.oscillate s));
    ("power_off_time", raised (FanStatus1C.delay_off_countdown s));
    ("light", raised (FanStatus1C.led s));
    ("buzzer", raised (FanStatus1C.buzzer s));
    ("child_lock", raised (FanStatus1C.child_lock s)) ].

(** The keys [__repr__] reads, in the order in which it reads them. *)
Definition repr_order : list string :=
  [ "power"; "mode"; "fan_level"; "swing_mode"; "light"; "buzzer";
    "child_lock"; "power_off_time" ].

(** Whether a dictionary lacks a key. *)
Definition missing (d : gmap string pyval) (k : string) : bool :=
  match d !! k with
  | Some _ => false
  | None => true
  end.

(** ** Properties of the transport wrappers *)

Section Wrappers.
Context {D : Type} `{MiotDevice D}.

Lemma set_property_run (self : Fan1C.t) (key : string) (v : pyval) (w : world D) :
  Fan1C.set_property self key v w =
    (fst (send_set (Fan1C.mapping self) key v (device w)),
     World (trace w ++ [CSet key v])
           (snd (send_set (Fan1C.mapping self) key v (device w)))).
Proof.
  unfold Fan1C.set_property.
  destruct (send_set (Fan1C.mapping self) key v (device w)) as [r d'].
  reflexivity.
Qed.

Lemma set_property_calls (self : Fan1C.t) (key : string) (v : pyval) (w : world D) :
  calls_of (Fan1C.set_property self key v) w = [CSet key v].
Proof.
  unfold calls_of. rewrite set_property_run. cbn [snd trace].
  apply drop_app_length.
Qed.

Lemma raise_calls {A} (e : exn) (w : world D) :
  calls_of (raise (A := A) e) w = [].
Proof. unfold calls_of, raise. cbn [snd]. apply drop_all. Qed.

Lemma get_properties_run (self : Fan1C.t) (w : world D) :
  Fan1C.get_properties_for_mapping self w =
    (fst (send_get (Fan1C.mapping self) (device w)),
     World (trace w ++ [CGet (Fan1C.mapping self)])
           (snd (send_get (Fan1C.mapping self) (device w)))).
Proof.
  unfold Fan1C.get_properties_for_mapping.
  destruct (send_get (Fan1C.mapping self) (device w)) as [r d'].
  reflexivity.
Qed.

End Wrappers.

(** ** The setters *)

Lemma py_in_123 (speed : Z) :
  py_in speed [1; 2; 3] = true <-> speed = 1 \/ speed = 2 \/ speed = 3.
Proof. unfold py_in. cbn [existsb]. lia. Qed.

(** C6.  [on] is exactly one transport write, of [True] to the property
    [power], and [off] exactly one, of [False] to [power]: each is the
    call [set_property] as a whole, so it hands the pair to the transport
    once, returns what the transport returns, leaves the device as the
    transport leaves it, and adds that one write and nothing else to the
    trace. *)
Theorem on_off_one_write {D : Type} `{MiotDevice D} (self : Fan1C.t) (w : world D) :
  (Fan1C.on self w = Fan1C.set_property self "power" (VBool true) w /\
   Fan1C.on self w =
     (fst (send_set (Fan1C.mapping self) "power" (VBool true) (device w)),
      World (trace w ++ [CSet "power" (VBool true)])
            (snd (send_set (Fan1C.mapping self) "power" (VBool true) (device w)))) /\
   calls_of (Fan1C.on self) w = [CSet "power" (VBool true)]) /\
  (Fan1C.off self w = Fan1C.set_property self "power" (VBool false) w /\
   Fan1C.off self w =
     (fst (send_set (Fan1C.mapping self) "power" (VBool false) (device w)),
      World (trace w ++ [CSet "power" (VBool false)])
            (snd (send_set (Fan1C.mapping self) "power" (VBool false) (device w)))) /\
   calls_of (Fan1C.off self) w = [CSet "power" (VBool false)]).
Proof.
  split; (split; [reflexivity | split; [apply set_property_run | apply set_property_calls]]).
Qed.

(** C5.  For either boolean, [set_natural_mode] forwards to the transport
    under the name [mode] the integer 1 for [True] and 0 for [False]: the
    call it issues is that write, and its outcome is the transport's. *)
Theorem set_natural_mode_encoding {D : Type} `{MiotDevice D}
    (self : Fan1C.t) (natural : bool) (w : world D) :
  calls_of (Fan1C.set_natural_mode self natural) w =
    [CSet "mode" (VInt (if natural then 1 else 0))] /\
  Fan1C.set_natural_mode self true w = Fan1C.set_property self "mode" (VInt 1) w /\
  Fan1C.set_natural_mode self false w = Fan1C.set_property self "mode" (VInt 0) w.
Proof.
  split; [apply set_property_calls | split; reflexivity].
Qed.

(** C2.  For every integer [speed]: outside 1, 2, 3, [set_direct_speed]
    raises [FanException] and leaves the world as it was (no transport
    call, the device untouched); for 1, 2 and 3 it raises nothing of its
    own and is the single transport write of [speed] to [fan_level] as a
    whole: it returns what the transport returns, leaves the device as
    the transport leaves it, and adds that one write to the trace. *)
Theorem set_direct_speed_validates {D : Type} `{MiotDevice D}
    (self : Fan1C.t) (speed : Z) (w : world D) :
  (~ (speed = 1 \/ speed = 2 \/ speed = 3) ->
     Fan1C.set_direct_speed self speed w =
       (Raise (FanException ("Invalid speed: " +:+ py_str speed)), w) /\
     calls_of (Fan1C.set_direct_speed self speed) w = []) /\
  (speed = 1 \/ speed = 2 \/ speed = 3 ->
     Fan1C.set_direct_speed self speed w =
       Fan1C.set_property self "fan_level" (VInt speed) w /\
     Fan1C.set_direct_speed self speed w =
       (fst (send_set (Fan1C.mapping self) "fan_level" (VInt speed) (device w)),
        World (trace w ++ [CSet "fan_level" (VInt speed)])
              (snd (send_set (Fan1C.mapping self) "fan_level" (VInt speed) (device w)))) /\
     calls_of (Fan1C.set_direct_speed self speed) w = [CSet "fan_level" (VInt speed)] /\
     fst (Fan1C.set_direct_speed self speed w) =
       fst (send_set (Fan1C.mapping self) "fan_level" (VInt speed) (device w))).
Proof.
  unfold Fan1C.set_direct_speed.
  destruct (py_in speed [1; 2; 3]) eqn:Hin; cbn [negb].
  - apply py_in_123 in Hin. split; [tauto |]. intros _.
    split; [reflexivity |]. split; [apply set_property_run |]. split.
    + apply set_property_calls.
    + rewrite set_property_run. reflexivity.
  - split.
    + intros _. split; [reflexivity | apply raise_calls].
    + intros Hok. apply py_in_123 in Hok. congruence.
Qed.

(** C3.  For every integer [seconds]: below 0, [delay_off] raises
    [FanException] and leaves the world as it was (no transport call);
    from 0 on it raises nothing of its own and is the single transport
    write of [seconds] to [power_off_time] as a whole: it returns what
    the transport returns, leaves the device as the transport leaves it,
    and adds that one write to the trace. *)
Theorem delay_off_validates {D : Type} `{MiotDevice D}
    (self : Fan1C.t) (seconds : Z) (w : world D) :
  (seconds < 0 ->
     Fan1C.delay_off self seconds w =
       (Raise (FanException
                 ("Invalid value for a delayed turn off: " +:+ py_str seconds)), w) /\
     calls_of (Fan1C.delay_off self seconds) w = []) /\
  (0 <= seconds ->
     Fan1C.delay_off self seconds w =
       Fan1C.set_property self "power_off_time" (VInt seconds) w /\
     Fan1C.delay_off self seconds w =
       (fst (send_set (Fan1C.mapping self) "power_off_time" (VInt seconds) (device w)),
        World (trace w ++ [CSet "power_off_time" (VInt seconds)])
              (snd (send_set (Fan1C.mapping self) "power_off_time" (VInt seconds)
                             (device w)))) /\
     calls_of (Fan1C.delay_off self seconds) w = [CSet "power_off_time" (VInt seconds)] /\
     fst (Fan1C.delay_off self seconds w) =
       fst (send_set (Fan1C.mapping self) "power_off_time" (VInt seconds) (device w))).
Proof.
  unfold Fan1C.delay_off.
  destruct (seconds <? 0) eqn:Hneg.
  - apply Z.ltb_lt in Hneg. split.
    + intros _. split; [reflexivity | apply raise_calls].
    + lia.
  - apply Z.ltb_ge in Hneg. split; [lia |]. intros _.
    split; [reflexivity |]. split; [apply set_property_run |]. split.
    + apply set_property_calls.
    + rewrite set_property_run. reflexivity.
Qed.

(** C7.  A setter whose input passes validation is one transport write and
    nothing else: there are a key and a value, fixed by the setter and its
    argument alone, such that on every device and from every world the
    setter behaves as the single call [set_property key value], the calls
    it adds to the trace are exactly that write (so no read), and its
    outcome depends on the world through the device only: the adapter
    carries nothing over from earlier calls. *)
Theorem setters_one_write_stateless (self : Fan1C.t) (op : setter) :
  passes_validation op ->
  exists (key : string) (v : pyval),
    forall (D : Type) (dev : MiotDevice D) (w : world D),
      run_setter self op w = Fan1C.set_property self key v w /\
      calls_of (run_setter self op) w = [CSet key v] /\
      (forall m, ~ In (CGet m) (calls_of (run_setter self op) w)) /\
      (forall w' : world D, device w' = device w ->
         fst (run_setter self op w') = fst (run_setter self op w) /\
         device (snd (run_setter self op w')) = device (snd (run_setter self op w)) /\
         calls_of (run_setter self op) w' = calls_of (run_setter self op) w).
Proof.
  intros Hvalid.
  assert (Hone : exists (key : string) (v : pyval),
             forall (D : Type) (dev : MiotDevice D) (w : world D),
               run_setter self op w = Fan1C.set_property self key v w).
  { destruct op as [| | speed | b | b | b | b | seconds]; cbn [run_setter].
    - exists "power", (VBool true). reflexivity.
    - exists "power", (VBool false). reflexivity.
    - exists "fan_level", (VInt speed). intros D dev w.
      unfold Fan1C.set_direct_speed.
      apply py_in_123 in Hvalid. rewrite Hvalid. reflexivity.
    - exists "swing_mode", (VBool b). reflexivity.
    - exists "buzzer", (VBool b). reflexivity.
    - exists "child_lock", (VBool b). reflexivity.
    - exists "mode", (VInt (if b then 1 else 0)). reflexivity.
    - exists "power_off_time", (VInt seconds). intros D dev w.
      unfold Fan1C.delay_off. cbn in Hvalid.
      destruct (seconds <? 0) eqn:Hneg; [apply Z.ltb_lt in Hneg; lia | reflexivity]. }
  destruct Hone as (key & v & Hone). exists key, v. intros D dev w.
  assert (Hcalls : forall u : world D, calls_of (run_setter self op) u = [CSet key v]).
  { intros u. unfold calls_of. rewrite Hone. apply set_property_calls. }
  split; [apply Hone |]. split; [apply Hcalls |]. split.
  - intros m. rewrite Hcalls. cbn. intros [Heq | []]. discriminate Heq.
  - intros w' Hdev. rewrite !Hone, !Hcalls, !set_property_run.
    cbn [fst snd device]. rewrite Hdev. auto.
Qed.

(** ** The derived accessors *)

(** C8.  Whatever raw value the snapshot holds under [mode], the derived
    mode is [Nature] exactly when that value is the integer 1 (as Python
    compares: [True] is the integer 1), and [Normal] for every other
    value; for a raw integer [z] it is [Nature] exactly when [z = 1]. *)
Theorem mode_nature_iff_one (s : FanStatus1C.t) (v : pyval) :
  FanStatus1C.data s !! "mode" = Some v ->
  (FanStatus1C.mode s = Ok Nature <-> as_int v = Some 1) /\
  (as_int v <> Some 1 -> FanStatus1C.mode s = Ok Normal) /\
  (forall z : Z, v = VInt z ->
     (FanStatus1C.mode s = Ok Nature <-> z = 1) /\
     (z <> 1 -> FanStatus1C.mode s = Ok Normal)).
Proof.
  intros Hv. unfold FanStatus1C.mode, getitem. rewrite Hv. cbn [rbind].
  assert (Heq : py_eq v (VInt 1) = true <-> as_int v = Some 1).
  { unfold py_eq. cbn [as_int]. destruct v as [| b | z | str]; cbn.
    - split; discriminate.
    - rewrite Z.eqb_eq. split; congruence.
    - rewrite Z.eqb_eq. split; congruence.
    - split; discriminate. }
  destruct (py_eq v (VInt 1)) eqn:Hpy.
  - assert (Hone : as_int v = Some 1) by (apply Heq; reflexivity).
    split; [tauto |]. split; [congruence |].
    intros z ->. cbn in Hone. split; [split; congruence | congruence].
  - assert (Hone : as_int v <> Some 1) by (rewrite <- Heq; discriminate).
    split; [split; [discriminate | contradiction] |]. split; [reflexivity |].
    intros z ->. cbn in Hone. split; [split; [discriminate | congruence] | reflexivity].
Qed.

(** C10.  In a snapshot where [power] was recorded as absent (its raw value
    is [None]), [power] returns ["off"] and [is_on] returns a value that is
    false as a condition, neither raising; where [mode] was recorded as
    absent, [mode] returns [Normal] without raising. *)
Theorem absent_accessors_default (s : FanStatus1C.t) :
  (FanStatus1C.data s !! "power" = Some VNone ->
     FanStatus1C.power s = Ok "off" /\
     exists v, FanStatus1C.is_on s = Ok v /\ truthy v = false) /\
  (FanStatus1C.data s !! "mode" = Some VNone ->
     FanStatus1C.mode s = Ok Normal).
Proof.
  unfold FanStatus1C.power, FanStatus1C.is_on, FanStatus1C.mode, getitem.
  split.
  - intros ->. cbn. split; [reflexivity |]. exists VNone. split; reflexivity.
  - intros ->. reflexivity.
Qed.

(** ** The status query *)

Lemma foldl_status_step_other (props : list prop) (m : gmap string pyval) (k : string) :
  ~ In k (map did props) ->
  foldl Fan1C.status_step m props !! k = m !! k.
Proof.
  revert m. induction props as [| p props IH]; intros m Hk; [reflexivity |].
  cbn [foldl]. rewrite IH.
  - unfold Fan1C.status_step. apply lookup_insert_ne.
    intros Heq. apply Hk. left. exact Heq.
  - intros Hin. apply Hk. right. exact Hin.
Qed.

Lemma foldl_status_step_entry (props : list prop) (m : gmap string pyval) (p : prop) :
  NoDup (map did props) ->
  In p props ->
  foldl Fan1C.status_step m props !! did p =
    Some (if code p =? 0 then value p else VNone).
Proof.
  revert m. induction props as [| q props IH]; intros m Hnd Hin; [destruct Hin |].
  cbn [map] in Hnd. apply NoDup_cons in Hnd as [Hq Hnd].
  cbn [foldl]. destruct Hin as [-> | Hin].
  - rewrite foldl_status_step_other.
    + unfold Fan1C.status_step. apply lookup_insert_eq.
    + rewrite <- list_elem_of_In. exact Hq.
  - apply IH; assumption.
Qed.

Lemma foldl_status_step_keys (props : list prop) (m : gmap string pyval) (k : string) :
  is_Some (foldl Fan1C.status_step m props !! k) <->
  is_Some (m !! k) \/ In k (map did props).
Proof.
  revert m. induction props as [| p props IH]; intros m; cbn [foldl map In].
  - tauto.
  - rewrite IH. unfold Fan1C.status_step.
    destruct (decide (did p = k)) as [Heq | Hne].
    + rewrite Heq, lookup_insert_eq. split; [auto | intros _; left; eauto].
    + rewrite lookup_insert_ne by exact Hne. tauto.
Qed.

(** C4.  Whenever the transport answers the query, [status] returns a
    snapshot and raises nothing, whatever the status codes are; the query
    is one batched read of the whole table, and the keys of the snapshot
    are the names in the answer.  With one entry per property in the
    answer, a property whose code is not 0 is recorded under its name
    with the value [None], and a property whose code is 0 is stored under
    its name with the value reported. *)
Theorem status_partial_failure {D : Type} `{MiotDevice D}
    (self : Fan1C.t) (w : world D) (props : list prop) (d' : D) :
  send_get (Fan1C.mapping self) (device w) = (Ok props, d') ->
  exists snap : FanStatus1C.t,
    Fan1C.status self w =
      (Ok snap, World (trace w ++ [CGet (Fan1C.mapping self)]) d') /\
    (forall k, is_Some (FanStatus1C.data snap !! k) <-> In k (map did props)) /\
    (NoDup (map did props) ->
       (forall p, In p props -> code p <> 0 ->
          FanStatus1C.data snap !! did p = Some VNone) /\
       (forall p, In p props -> code p = 0 ->
          FanStatus1C.data snap !! did p = Some (value p))).
Proof.
  intros Hget.
  exists (FanStatus1C.mk (foldl Fan1C.status_step ∅ props)).
  split; [| split].
  - unfold Fan1C.status, bind. rewrite get_properties_run, Hget. reflexivity.
  - intros k. cbn [FanStatus1C.data]. rewrite foldl_status_step_keys.
    rewrite lookup_empty. split; [intros [[v Hv] | Hin]; [discriminate | exact Hin] | auto].
  - intros Hnd. split; intros p Hin Hcode; cbn [FanStatus1C.data];
      rewrite (foldl_status_step_entry props ∅ p Hnd Hin).
    + apply Z.eqb_neq in Hcode. rewrite Hcode. reflexivity.
    + apply Z.eqb_eq in Hcode. rewrite Hcode. reflexivity.
Qed.

Lemma status_data_permutation (props props' : list prop) :
  Permutation props props' ->
  NoDup (map did props') ->
  foldl Fan1C.status_step ∅ props = foldl Fan1C.status_step ∅ props'.
Proof.
  intros Hperm Hnd'.
  assert (Hnd : NoDup (map did props)).
  { rewrite (Permutation_map did Hperm). exact Hnd'. }
  apply map_eq. intros k.
  destruct (in_dec string_dec k (map did props)) as [Hin | Hout].
  - apply in_map_iff in Hin as (p & <- & Hp).
    rewrite (foldl_status_step_entry props ∅ p Hnd Hp).
    symmetry. apply foldl_status_step_entry; [exact Hnd' |].
    apply (Permutation_in p Hperm Hp).
  - rewrite !foldl_status_step_other; [reflexivity | | exact Hout].
    intros Hin. apply Hout.
    apply (Permutation_in k (Permutation_map did (Permutation_sym Hperm)) Hin).
Qed.

(** C1.  When the transport answers the query with the raw values power 1,
    mode 1, fan_level 2, swing_mode 0, power_off_time 120, light 1,
    buzzer 0 and child_lock 1, all with status code 0 and in whatever
    order, [status] returns a snapshot whose power is ["on"], whose mode
    is [Nature], whose speed is 2, whose countdown is 120, and whose
    oscillate, led, buzzer and child_lock are the raw 0, 1, 0 and 1, which
    Python's [==] equates with [False], [True], [False] and [True]. *)
Theorem status_round_trip {D : Type} `{MiotDevice D}
    (self : Fan1C.t) (w : world D) (props : list prop) (d' : D) :
  send_get (Fan1C.mapping self) (device w) = (Ok props, d') ->
  Permutation props round_trip_answer ->
  exists snap : FanStatus1C.t,
    fst (Fan1C.status self w) = Ok snap /\
    FanStatus1C.power snap = Ok "on" /\
    FanStatus1C.mode snap = Ok Nature /\
    FanStatus1C.speed snap = Ok (VInt 2) /\
    FanStatus1C.delay_off_countdown snap = Ok (VInt 120) /\
    (exists v, FanStatus1C.oscillate snap = Ok v /\ py_eq v (VBool false) = true) /\
    (exists v, FanStatus1C.led snap = Ok v /\ py_eq v (VBool true) = true) /\
    (exists v, FanStatus1C.buzzer snap = Ok v /\ py_eq v (VBool false) = true) /\
    (exists v, FanStatus1C.child_lock snap = Ok v /\ py_eq v (VBool true) = true).
Proof.
  intros Hget Hperm.
  exists (FanStatus1C.mk (foldl Fan1C.status_step ∅ props)).
  split.
  - unfold Fan1C.status, bind. rewrite get_properties_run, Hget. reflexivity.
  - rewrite (status_data_permutation props round_trip_answer Hperm)
      by (apply (bool_decide_unpack _); vm_compute; exact I).
    repeat split; try (vm_compute; reflexivity).
    + exists (VInt 0). split; vm_compute; reflexivity.
    + exists (VInt 1). split; vm_compute; reflexivity.
    + exists (VInt 0). split; vm_compute; reflexivity.
    + exists (VInt 1). split; vm_compute; reflexivity.
Qed.

(** ** The property table and its users *)

Lemma getitem_is_ok (d : gmap string pyval) (k : string) :
  is_Some (d !! k) -> exists v, getitem d k = Ok v.
Proof. intros [v Hv]. exists v. unfold getitem. rewrite Hv. reflexivity. Qed.

Lemma setter_calls_cases {D : Type} `{MiotDevice D}
    (self : Fan1C.t) (op : setter) (w : world D) :
  calls_of (run_setter self op) w = [] \/
  exists key v, In key attribute_names /\
                calls_of (run_setter self op) w = [CSet key v].
Proof.
  destruct op as [| | speed | b | b | b | b | seconds]; cbn [run_setter].
  - right. exists "power", (VBool true). split; [cbn; tauto | apply set_property_calls].
  - right. exists "power", (VBool false). split; [cbn; tauto | apply set_property_calls].
  - unfold Fan1C.set_direct_speed. destruct (py_in speed [1; 2; 3]); cbn [negb].
    + right. exists "fan_level", (VInt speed).
      split; [cbn; tauto | apply set_property_calls].
    + left. apply raise_calls.
  - right. exists "swing_mode", (VBool b). split; [cbn; tauto | apply set_property_calls].
  - right. exists "buzzer", (VBool b). split; [cbn; tauto | apply set_property_calls].
  - right. exists "child_lock", (VBool b). split; [cbn; tauto | apply set_property_calls].
  - right. exists "mode", (VInt (if b then 1 else 0)).
    split; [cbn; tauto | apply set_property_calls].
  - unfold Fan1C.delay_off. destruct (seconds <? 0).
    + left. apply raise_calls.
    + right. exists "power_off_time", (VInt seconds).
      split; [cbn; tauto | apply set_property_calls].
Qed.

(** C9.  The keys of [_MAPPING] are the eight attribute names, each once,
    and each carries one (siid, piid) pair; [__init__] hands this very
    table to the base class, and the query of [status] is made with it.
    Every name a setter writes to is a key of the table, and every name an
    accessor of the snapshot reads is one too: on a snapshot that holds
    the keys of the table no accessor misses a key. *)
Theorem mapping_covers_attributes :
  mapping_keys _MAPPING = attribute_names /\
  NoDup (mapping_keys _MAPPING) /\
  (forall k, In k attribute_names ->
     exists sp, mapping_get _MAPPING k = Some sp /\ In (k, sp) _MAPPING) /\
  (forall ip token start_id debug lazy_discover,
     Fan1C.mapping (Fan1C.__init__ ip token start_id debug lazy_discover) = _MAPPING) /\
  (forall ip token start_id debug lazy_discover
          (D : Type) (dev : MiotDevice D) (w : world D),
     calls_of (Fan1C.status (Fan1C.__init__ ip token start_id debug lazy_discover)) w =
       [CGet _MAPPING]) /\
  (forall (self : Fan1C.t) (op : setter) (D : Type) (dev : MiotDevice D)
          (w : world D) (key : string) (v : pyval),
     In (CSet key v) (calls_of (run_setter self op) w) ->
     In key (mapping_keys _MAPPING)) /\
  (forall s : FanStatus1C.t,
     (forall k, In k (mapping_keys _MAPPING) -> is_Some (FanStatus1C.data s !! k)) ->
     is_ok (FanStatus1C.power s) /\ is_ok (FanStatus1C.is_on s) /\
     is_ok (FanStatus1C.mode s) /\ is_ok (FanStatus1C.speed s) /\
     is_ok (FanStatus1C.oscillate s) /\ is_ok (FanStatus1C.delay_off_countdown s) /\
     is_ok (FanStatus1C.led s) /\ is_ok (FanStatus1C.buzzer s) /\
     is_ok (FanStatus1C.child_lock s)).
Proof.
  split; [reflexivity |]. split.
  { apply (bool_decide_unpack _). vm_compute. exact I. }
  split.
  { intros k Hk. cbn in Hk.
    repeat (destruct Hk as [<- | Hk];
            [eexists; split; [reflexivity | cbn; tauto] |]).
    destruct Hk. }
  split; [reflexivity |]. split.
  { intros ip token start_id debug lazy_discover D dev w.
    unfold calls_of, Fan1C.status, bind. rewrite get_properties_run.
    cbn [fst snd]. destruct (fst (send_get _ _)); cbn [snd trace ret];
      apply drop_app_length. }
  split.
  { intros self op D dev w key v Hin.
    destruct (setter_calls_cases self op w) as [Hnone | (key' & v' & Hkey & Hone)].
    - rewrite Hnone in Hin. destruct Hin.
    - rewrite Hone in Hin. destruct Hin as [Heq | []].
      injection Heq as -> ->. exact Hkey. }
  intros s Hall.
  assert (Hget : forall k, In k attribute_names -> exists v, getitem (FanStatus1C.data s) k = Ok v).
  { intros k Hk. apply getitem_is_ok, Hall. exact Hk. }
  unfold FanStatus1C.power, FanStatus1C.is_on, FanStatus1C.mode, FanStatus1C.speed,
    FanStatus1C.oscillate, FanStatus1C.delay_off_countdown, FanStatus1C.led,
    FanStatus1C.buzzer, FanStatus1C.child_lock.
  repeat split;
    match goal with
    | |- context [getitem _ ?k] =>
        destruct (Hget k) as [v ->]; [cbn; tauto | exact I]
    end.
Qed.

(** ** The theorems at concrete inputs *)

(** The round trip on the simulated device. *)
Lemma status_round_trip_witness :
  exists snap : FanStatus1C.t,
    fst (Fan1C.status fan (World [] round_trip_store)) = Ok snap /\
    FanStatus1C.power snap = Ok "on" /\
    FanStatus1C.mode snap = Ok Nature /\
    FanStatus1C.speed snap = Ok (VInt 2) /\
    FanStatus1C.delay_off_countdown snap = Ok (VInt 120) /\
    (exists v, FanStatus1C.oscillate snap = Ok v /\ py_eq v (VBool false) = true) /\
    (exists v, FanStatus1C.led snap = Ok v /\ py_eq v (VBool true) = true) /\
    (exists v, FanStatus1C.buzzer snap = Ok v /\ py_eq v (VBool false) = true) /\
    (exists v, FanStatus1C.child_lock snap = Ok v /\ py_eq v (VBool true) = true).
Proof.
  eapply (status_round_trip fan (World [] round_trip_store)).
  - vm_compute. reflexivity.
  - apply (bool_decide_unpack _). vm_compute. exact I.
Defined.

(** The partial failure of the specification on the simulated device:
    [light] comes back with a non-zero code and is recorded as [None], the
    other seven properties are populated as in the round trip. *)
Lemma status_partial_failure_witness :
  exists snap : FanStatus1C.t,
    Fan1C.status fan (World [] light_failed_store) =
      (Ok snap, World [CGet _MAPPING] light_failed_store) /\
    FanStatus1C.data snap !! "light" = Some VNone /\
    FanStatus1C.data snap !! "power" = Some (VInt 1) /\
    FanStatus1C.data snap !! "mode" = Some (VInt 1) /\
    FanStatus1C.data snap !! "fan_level" = Some (VInt 2) /\
    FanStatus1C.data snap !! "swing_mode" = Some (VInt 0) /\
    FanStatus1C.data snap !! "power_off_time" = Some (VInt 120) /\
    FanStatus1C.data snap !! "buzzer" = Some (VInt 0) /\
    FanStatus1C.data snap !! "child_lock" = Some (VInt 1).
Proof.
  edestruct (status_partial_failure fan (World [] light_failed_store))
    as (snap & Hrun & _ & Hentries).
  - vm_compute. reflexivity.
  - destruct Hentries as [Hbad Hgood];
      [apply (bool_decide_unpack _); vm_compute; exact I |].
    exists snap. split; [exact Hrun |]. split.
    + apply (Hbad (Prop_ "light" VNone (-4001))); [cbn; tauto | discriminate].
    + repeat split.
      * apply (Hgood (Prop_ "power" (VInt 1) 0)); [cbn; tauto | reflexivity].
      * apply (Hgood (Prop_ "mode" (VInt 1) 0)); [cbn; tauto | reflexivity].
      * apply (Hgood (Prop_ "fan_level" (VInt 2) 0)); [cbn; tauto | reflexivity].
      * apply (Hgood (Prop_ "swing_mode" (VInt 0) 0)); [cbn; tauto | reflexivity].
      * apply (Hgood (Prop_ "power_off_time" (VInt 120) 0)); [cbn; tauto | reflexivity].
      * apply (Hgood (Prop_ "buzzer" (VInt 0) 0)); [cbn; tauto | reflexivity].
      * apply (Hgood (Prop_ "child_lock" (VInt 1) 0)); [cbn; tauto | reflexivity].
Defined.

(** Speed 4 is refused without a call; speed 2 reaches the simulated
    device, which then holds it under [fan_level]. *)
Lemma set_direct_speed_validates_witness :
  (Fan1C.set_direct_speed fan 4 (World [] round_trip_store) =
     (Raise (FanException "Invalid speed: 4"), World [] round_trip_store) /\
   calls_of (Fan1C.set_direct_speed fan 4) (World [] round_trip_store) = []) /\
  Fan1C.set_direct_speed fan 2 (World [] (∅ : gmap string pyval)) =
    (Ok (VStr "ok"),
     World [CSet "fan_level" (VInt 2)] (<["fan_level" := VInt 2]> ∅)).
Proof.
  split.
  - apply (proj1 (set_direct_speed_validates fan 4 (World [] round_trip_store))). lia.
  - destruct (proj2 (set_direct_speed_validates fan 2 (World [] (∅ : gmap string pyval))))
      as (_ & Hrun & _); [lia |].
    rewrite Hrun. reflexivity.
Defined.

(** A delay of -1 is refused without a call; a delay of 0 reaches the
    simulated device, which then holds it under [power_off_time]. *)
Lemma delay_off_validates_witness :
  (Fan1C.delay_off fan (-1) (World [] round_trip_store) =
     (Raise (FanException "Invalid value for a delayed turn off: -1"),
      World [] round_trip_store) /\
   calls_of (Fan1C.delay_off fan (-1)) (World [] round_trip_store) = []) /\
  Fan1C.delay_off fan 0 (World [] (∅ : gmap string pyval)) =
    (Ok (VStr "ok"),
     World [CSet "power_off_time" (VInt 0)] (<["power_off_time" := VInt 0]> ∅)).
Proof.
  split.
  - apply (proj1 (delay_off_validates fan (-1) (World [] round_trip_store))). lia.
  - destruct (proj2 (delay_off_validates fan 0 (World [] (∅ : gmap string pyval))))
      as (_ & Hrun & _); [lia |].
    rewrite Hrun. reflexivity.
Defined.

(** Setting speed 2 is one write, on the simulated device and on one that
    is out of reach alike. *)
Lemma setters_one_write_stateless_witness :
  exists (key : string) (v : pyval),
    calls_of (run_setter fan (SetDirectSpeed 2)) (World [] round_trip_store) = [CSet key v] /\
    calls_of (run_setter fan (SetDirectSpeed 2)) (World [CGet _MAPPING] tt) = [CSet key v].
Proof.
  destruct (setters_one_write_stateless fan (SetDirectSpeed 2)) as (key & v & Hall).
  - cbn. lia.
  - exists key, v. split.
    + apply (Hall _ sim_device (World [] round_trip_store)).
    + apply (Hall _ offline_device (World [CGet _MAPPING] tt)).
Defined.

(** The raw mode 1 of the round trip is [Nature]. *)
Lemma mode_nature_iff_one_witness :
  FanStatus1C.mode (FanStatus1C.mk round_trip_store) = Ok Nature.
Proof.
  apply (proj1 (mode_nature_iff_one (FanStatus1C.mk round_trip_store) (VInt 1)
                  ltac:(vm_compute; reflexivity))).
  reflexivity.
Defined.

(** The snapshot of a device that reported no property at all. *)
Lemma absent_accessors_default_witness :
  FanStatus1C.power absent_snapshot = Ok "off" /\
  (exists v, FanStatus1C.is_on absent_snapshot = Ok v /\ truthy v = false) /\
  FanStatus1C.mode absent_snapshot = Ok Normal.
Proof.
  destruct (absent_accessors_default absent_snapshot) as [Hpower Hmode].
  destruct Hpower as [Hp Hon]; [vm_compute; reflexivity |].
  split; [exact Hp |]. split; [exact Hon |].
  apply Hmode. vm_compute. reflexivity.
Defined.

(** On the snapshot of the round trip, which holds the eight keys of the
    table, every accessor returns a value. *)
Lemma mapping_covers_attributes_witness :
  is_ok (FanStatus1C.power (FanStatus1C.mk round_trip_store)) /\
  is_ok (FanStatus1C.is_on (FanStatus1C.mk round_trip_store)) /\
  is_ok (FanStatus1C.mode (FanStatus1C.mk round_trip_store)) /\
  is_ok (FanStatus1C.speed (FanStatus1C.mk round_trip_store)) /\
  is_ok (FanStatus1C.oscillate (FanStatus1C.mk round_trip_store)) /\
  is_ok (FanStatus1C.delay_off_countdown (FanStatus1C.mk round_trip_store)) /\
  is_ok (FanStatus1C.led (FanStatus1C.mk round_trip_store)) /\
  is_ok (FanStatus1C.buzzer (FanStatus1C.mk round_trip_store)) /\
  is_ok (FanStatus1C.child_lock (FanStatus1C.mk round_trip_store)).
Proof.
  apply mapping_covers_attributes.
  intros k Hk. cbn in Hk.
  repeat (destruct Hk as [<- | Hk]; [vm_compute; eauto |]).
  destruct Hk.
Defined.

(** ** Further properties of the status query *)

(** X1.  [status] is one batched read of the adapter's table and nothing
    else, whether the transport answers or fails; when the transport
    fails, its exception is what [status] raises, and no snapshot is
    built. *)
Theorem status_one_read_propagates {D : Type} `{MiotDevice D}
    (self : Fan1C.t) (w : world D) :
  calls_of (Fan1C.status self) w = [CGet (Fan1C.mapping self)] /\
  (forall e d', send_get (Fan1C.mapping self) (device w) = (Raise e, d') ->
     Fan1C.status self w =
       (Raise e, World (trace w ++ [CGet (Fan1C.mapping self)]) d')).
Proof.
  split.
  - unfold calls_of, Fan1C.status, bind. rewrite get_properties_run.
    destruct (fst (send_get _ _)); cbn [snd trace ret]; apply drop_app_length.
  - intros e d' Hget. unfold Fan1C.status, bind.
    rewrite get_properties_run, Hget. reflexivity.
Qed.

Lemma foldl_status_step_app (props1 props2 : list prop) (m : gmap string pyval) :
  foldl Fan1C.status_step m (props1 ++ props2)%list =
  foldl Fan1C.status_step (foldl Fan1C.status_step m props1) props2.
Proof. apply foldl_app. Qed.

(** X2.  When the answer names a property more than once, the last entry
    for it decides what the snapshot holds: its value if its code is 0,
    [None] otherwise, whatever the earlier entries said. *)
Theorem status_last_entry_wins {D : Type} `{MiotDevice D}
    (self : Fan1C.t) (w : world D) (props1 props2 : list prop) (p : prop) (d' : D) :
  send_get (Fan1C.mapping self) (device w) = (Ok (props1 ++ p :: props2)%list, d') ->
  ~ In (did p) (map did props2) ->
  exists snap : FanStatus1C.t,
    fst (Fan1C.status self w) = Ok snap /\
    FanStatus1C.data snap !! did p = Some (if code p =? 0 then value p else VNone).
Proof.
  intros Hget Hlast.
  exists (FanStatus1C.mk (foldl Fan1C.status_step ∅ (props1 ++ p :: props2)%list)).
  split.
  - unfold Fan1C.status, bind. rewrite get_properties_run, Hget. reflexivity.
  - cbn [FanStatus1C.data]. rewrite foldl_status_step_app. cbn [foldl].
    rewrite foldl_status_step_other by exact Hlast.
    unfold Fan1C.status_step. apply lookup_insert_eq.
Qed.

(** X3.  The snapshot keeps no status code: an entry that failed, with
    whatever code and value, leaves the same snapshot as an entry that
    reports [None] with code 0. *)
Theorem status_forgets_codes (props1 props2 : list prop)
    (k : string) (v : pyval) (c : Z) :
  c <> 0 ->
  foldl Fan1C.status_step ∅ (props1 ++ Prop_ k v c :: props2)%list =
  foldl Fan1C.status_step ∅ (props1 ++ Prop_ k VNone 0 :: props2)%list.
Proof.
  intros Hc. rewrite !foldl_status_step_app. cbn [foldl].
  unfold Fan1C.status_step at 2 4. cbn [did code value].
  apply Z.eqb_neq in Hc. rewrite Hc. reflexivity.
Qed.

(** X4.  After a status query, an accessor returns a value exactly when
    the answer had an entry for the key it reads, whatever the code of
    the entry; when the answer had none, the accessor raises [KeyError]
    for that key. *)
Theorem status_accessors_follow_answer {D : Type} `{MiotDevice D}
    (self : Fan1C.t) (w : world D) (props : list prop) (d' : D) :
  send_get (Fan1C.mapping self) (device w) = (Ok props, d') ->
  exists snap : FanStatus1C.t,
    fst (Fan1C.status self w) = Ok snap /\
    forall k o, In (k, o) (accessor_outcomes snap) ->
      (In k (map did props) -> o = None) /\
      (~ In k (map did props) -> o = Some (KeyError k)).
Proof.
  intros Hget.
  exists (FanStatus1C.mk (foldl Fan1C.status_step ∅ props)).
  split.
  - unfold Fan1C.status, bind. rewrite get_properties_run, Hget. reflexivity.
  - intros k o Hin.
    pose proof (foldl_status_step_keys props ∅ k) as Hkeys.
    rewrite lookup_empty in Hkeys.
    assert (Hsome : is_Some (foldl Fan1C.status_step ∅ props !! k) <->
                    In k (map did props)).
    { rewrite Hkeys. split; [intros [[x Hx] | Hk]; [discriminate | exact Hk] | auto]. }
    unfold accessor_outcomes, FanStatus1C.power, FanStatus1C.is_on,
      FanStatus1C.mode, FanStatus1C.speed, FanStatus1C.oscillate,
      FanStatus1C.delay_off_countdown, FanStatus1C.led, FanStatus1C.buzzer,
      FanStatus1C.child_lock, getitem in Hin.
    cbn [FanStatus1C.data In] in Hin.
    repeat (destruct Hin as [Hin | Hin];
            [injection Hin as <- <-;
             destruct (foldl Fan1C.status_step ∅ props !! _) as [x |] eqn:Hx;
             cbn [rbind raised];
             (split; [intros Hk; first [reflexivity | apply Hsome in Hk; destruct Hk; discriminate]
                     | intros Hk; first [reflexivity | exfalso; apply Hk, Hsome; eauto]]) |]).
    destruct Hin.
Qed.

(** ** Further properties of the snapshot *)

(** X5.  [power] and [is_on] read the same raw value and agree on it:
    [power] is ["on"] exactly when [is_on] returns a value that is true as
    a condition, ["off"] exactly when it returns one that is false, there
    is no third text, and either raises exactly when the other does. *)
Theorem power_agrees_with_is_on (s : FanStatus1C.t) :
  (FanStatus1C.power s = Ok "on" <->
     exists v, FanStatus1C.is_on s = Ok v /\ truthy v = true) /\
  (FanStatus1C.power s = Ok "off" <->
     exists v, FanStatus1C.is_on s = Ok v /\ truthy v = false) /\
  (forall text, FanStatus1C.power s = Ok text -> text = "on" \/ text = "off") /\
  (forall e, FanStatus1C.power s = Raise e <-> FanStatus1C.is_on s = Raise e).
Proof.
  unfold FanStatus1C.power, FanStatus1C.is_on, getitem.
  destruct (FanStatus1C.data s !! "power") as [v |]; cbn [rbind].
  - assert (Hex : forall b : bool,
               (exists v', Ok v = Ok v' /\ truthy v' = b) <-> truthy v = b).
    { intros b. split.
      - intros (v' & Hv' & Ht'). injection Hv' as <-. exact Ht'.
      - intros Ht. exists v. split; [reflexivity | exact Ht]. }
    split; [| split; [| split]].
    + rewrite Hex. destruct (truthy v); split; congruence.
    + rewrite Hex. destruct (truthy v); split; congruence.
    + intros text Htext. destruct (truthy v); injection Htext as <-; auto.
    + intros e. split; discriminate.
  - split; [| split; [| split]].
    + split; [discriminate | intros (v' & Hv' & _); discriminate].
    + split; [discriminate | intros (v' & Hv' & _); discriminate].
    + discriminate.
    + intros e. split; intros Heq; injection Heq as <-; reflexivity.
Qed.

(** X6.  [__repr__] returns a text exactly when the snapshot holds all the
    eight keys it reads (a value of [None] under a key is printed, not
    refused); otherwise it raises [KeyError] for the first key, in the
    order in which it reads them, that the snapshot lacks. *)
Theorem repr_needs_every_key (s : FanStatus1C.t) :
  match find (missing (FanStatus1C.data s)) repr_order with
  | Some k => FanStatus1C.__repr__ s = Raise (KeyError k)
  | None => is_ok (FanStatus1C.__repr__ s)
  end.
Proof.
  unfold FanStatus1C.__repr__, FanStatus1C.power, FanStatus1C.mode,
    FanStatus1C.speed, FanStatus1C.oscillate, FanStatus1C.led,
    FanStatus1C.buzzer, FanStatus1C.child_lock, FanStatus1C.delay_off_countdown,
    getitem, repr_order, missing.
  cbn [find].
  destruct (FanStatus1C.data s !! "power"); cbn [rbind]; [| reflexivity].
  destruct (FanStatus1C.data s !! "mode"); cbn [rbind]; [| reflexivity].
  destruct (FanStatus1C.data s !! "fan_level"); cbn [rbind]; [| reflexivity].
  destruct (FanStatus1C.data s !! "swing_mode"); cbn [rbind]; [| reflexivity].
  destruct (FanStatus1C.data s !! "light"); cbn [rbind]; [| reflexivity].
  destruct (FanStatus1C.data s !! "buzzer"); cbn [rbind]; [| reflexivity].
  destruct (FanStatus1C.data s !! "child_lock"); cbn [rbind]; [| reflexivity].
  destruct (FanStatus1C.data s !! "power_off_time"); cbn [rbind]; [| reflexivity].
  exact I.
Qed.

(** ** Further properties of the table and of the setters *)

Lemma mapping_get_In (m : list (string * siid_piid)) (k : string) (sp : siid_piid) :
  mapping_get m k = Some sp -> In (k, sp) m.
Proof.
  induction m as [| [k' sp'] m IH]; cbn [mapping_get]; [discriminate |].
  destruct (String.eqb_spec k' k) as [-> | Hne].
  - intros Heq. injection Heq as ->. left. reflexivity.
  - intros Hget. right. apply IH, Hget.
Qed.

Lemma mapping_get_keys (m : list (string * siid_piid)) (k : string) :
  is_Some (mapping_get m k) <-> In k (mapping_keys m).
Proof.
  induction m as [| [k' sp'] m IH]; cbn [mapping_get mapping_keys map In fst].
  - split; [intros [sp Hsp]; discriminate | tauto].
  - destruct (String.eqb_spec k' k) as [-> | Hne].
    + split; [auto | eauto].
    + rewrite IH. unfold mapping_keys. tauto.
Qed.

(** X7.  No two attribute names of the table address the same property of
    the device: names with the same (siid, piid) pair are the same name;
    and a name has a pair exactly when it is one of the eight. *)
Theorem mapping_pairs_distinct :
  (forall k1 k2 sp,
     mapping_get _MAPPING k1 = Some sp -> mapping_get _MAPPING k2 = Some sp ->
     k1 = k2) /\
  (forall k, is_Some (mapping_get _MAPPING k) <-> In k attribute_names).
Proof.
  split.
  - intros k1 k2 sp H1 H2.
    apply mapping_get_In in H1. apply mapping_get_In in H2.
    cbn in H1, H2.
    repeat (destruct H1 as [H1 | H1]; [inversion H1; subst; clear H1 |]);
      try (destruct H1);
      repeat (destruct H2 as [H2 | H2]; [inversion H2; subst; reflexivity |]);
      destruct H2.
  - intros k. apply mapping_get_keys.
Qed.

(** X8.  A setter reaches the transport exactly when its input passes
    validation: with an input that fails, it raises [FanException] and
    leaves the world as it was; and no setter, on any input, makes more
    than one call. *)
Theorem setter_calls_iff_valid {D : Type} `{MiotDevice D}
    (self : Fan1C.t) (op : setter) (w : world D) :
  (calls_of (run_setter self op) w = [] <-> ~ passes_validation op) /\
  (~ passes_validation op ->
     exists msg, run_setter self op w = (Raise (FanException msg), w)) /\
  (length (calls_of (run_setter self op) w) <= 1)%nat.
Proof.
  destruct op as [| | speed | b | b | b | b | seconds];
    cbn [run_setter passes_validation];
    try (unfold Fan1C.on, Fan1C.off, Fan1C.set_oscillate, Fan1C.set_buzzer,
           Fan1C.set_child_lock, Fan1C.set_natural_mode;
         rewrite set_property_calls; cbn [length];
         split; [split; [discriminate | tauto] | split; [tauto | lia]]).
  - unfold Fan1C.set_direct_speed.
    destruct (py_in speed [1; 2; 3]) eqn:Hin; cbn [negb].
    + apply py_in_123 in Hin. rewrite set_property_calls. cbn [length].
      split; [split; [discriminate | tauto] | split; [tauto | lia]].
    + assert (Hbad : ~ (speed = 1 \/ speed = 2 \/ speed = 3)).
      { intros Hok. apply py_in_123 in Hok. congruence. }
      rewrite raise_calls. cbn [length].
      split; [tauto | split; [intros _; eexists; reflexivity | lia]].
  - unfold Fan1C.delay_off.
    destruct (seconds <? 0) eqn:Hneg.
    + apply Z.ltb_lt in Hneg. rewrite raise_calls. cbn [length].
      split; [split; [lia | reflexivity] | split; [intros _; eexists; reflexivity | lia]].
    + apply Z.ltb_ge in Hneg. rewrite set_property_calls. cbn [length].
      split; [split; [discriminate | tauto] | split; [tauto | lia]].
Qed.

(** ** Writing, then reading back *)

(** X9.  Setting the natural mode and then querying the status reads the
    mode back: when the write succeeds and the answer to the query
    reports, once per property, the value just written under [mode], the
    two calls reach the transport in this order and the snapshot's mode
    is [Nature] for [True] and [Normal] for [False]. *)
Theorem natural_mode_round_trip {D : Type} `{MiotDevice D}
    (self : Fan1C.t) (natural : bool) (w : world D)
    (ack : pyval) (d1 d2 : D) (props : list prop) :
  send_set (Fan1C.mapping self) "mode" (VInt (if natural then 1 else 0)) (device w)
    = (Ok ack, d1) ->
  send_get (Fan1C.mapping self) d1 = (Ok props, d2) ->
  NoDup (map did props) ->
  In (Prop_ "mode" (VInt (if natural then 1 else 0)) 0) props ->
  exists snap : FanStatus1C.t,
    (Fan1C.set_natural_mode self natural >>= fun _ => Fan1C.status self) w =
      (Ok snap,
       World (trace w ++ [CSet "mode" (VInt (if natural then 1 else 0));
                          CGet (Fan1C.mapping self)])%list d2) /\
    FanStatus1C.mode snap = Ok (if natural then Nature else Normal).
Proof.
  intros Hset Hget Hnd Hin.
  exists (FanStatus1C.mk (foldl Fan1C.status_step ∅ props)).
  split.
  - unfold bind at 1, Fan1C.set_natural_mode. rewrite set_property_run, Hset.
    cbn [fst snd]. unfold Fan1C.status, bind. rewrite get_properties_run.
    cbn [device trace]. rewrite Hget. cbn [fst snd ret].
    rewrite <- app_assoc. reflexivity.
  - unfold FanStatus1C.mode, getitem. cbn [FanStatus1C.data].
    rewrite (foldl_status_step_entry props ∅ _ Hnd Hin). cbn [did code value].
    destruct natural; reflexivity.
Qed.

(** X10.  Switching the fan on or off and then querying the status reads
    the power back: when the write succeeds and the answer reports, once
    per property, the boolean just written under [power], the snapshot's
    power is ["on"] after [on] and ["off"] after [off], and [is_on] is
    that boolean. *)
Theorem power_round_trip {D : Type} `{MiotDevice D}
    (self : Fan1C.t) (switch : bool) (w : world D)
    (ack : pyval) (d1 d2 : D) (props : list prop) :
  send_set (Fan1C.mapping self) "power" (VBool switch) (device w) = (Ok ack, d1) ->
  send_get (Fan1C.mapping self) d1 = (Ok props, d2) ->
  NoDup (map did props) ->
  In (Prop_ "power" (VBool switch) 0) props ->
  exists snap : FanStatus1C.t,
    ((if switch then Fan1C.on self else Fan1C.off self) >>= fun _ => Fan1C.status self) w =
      (Ok snap,
       World (trace w ++ [CSet "power" (VBool switch);
                          CGet (Fan1C.mapping self)])%list d2) /\
    FanStatus1C.power snap = Ok (if switch then "on" else "off") /\
    FanStatus1C.is_on snap = Ok (VBool switch).
Proof.
  intros Hset Hget Hnd Hin.
  exists (FanStatus1C.mk (foldl Fan1C.status_step ∅ props)).
  split.
  - assert (Hop : (if switch then Fan1C.on self else Fan1C.off self) =
                  Fan1C.set_property self "power" (VBool switch))
      by (destruct switch; reflexivity).
    rewrite Hop. unfold bind at 1. rewrite set_property_run, Hset.
    cbn [fst snd]. unfold Fan1C.status, bind. rewrite get_properties_run.
    cbn [device trace]. rewrite Hget. cbn [fst snd ret].
    rewrite <- app_assoc. reflexivity.
  - unfold FanStatus1C.power, FanStatus1C.is_on, getitem. cbn [FanStatus1C.data].
    rewrite (foldl_status_step_entry props ∅ _ Hnd Hin). cbn [did code value].
    destruct switch; split; reflexivity.
Qed.

(** ** The further properties at concrete inputs *)

(** The text of the snapshot of the round trip. *)
Example repr_round_trip :
  FanStatus1C.__repr__ (FanStatus1C.mk round_trip_store) =
    Ok ("<FanStatus power=on, mode=OperationMode.Nature, speed=2, oscillate=0, "
        +:+ "led=1, buzzer=0, child_lock=1, delay_off_countdown=120>").
Proof. vm_compute. reflexivity. Qed.

(** A snapshot that lacks [light] and [mode]: [mode] is read first. *)
Example repr_first_missing :
  FanStatus1C.__repr__ (FanStatus1C.mk (delete "mode" (delete "light" round_trip_store))) =
    Raise (KeyError "mode").
Proof. vm_compute. reflexivity. Qed.

(** Two entries for [power], the first failed and the second not. *)
Lemma status_last_entry_wins_witness :
  exists snap : FanStatus1C.t,
    fst (Fan1C.status fan
           (World [] [Prop_ "power" VNone (-4001); Prop_ "power" (VBool true) 0])) = Ok snap /\
    FanStatus1C.data snap !! "power" = Some (VBool true).
Proof.
  apply (status_last_entry_wins fan
           (World [] [Prop_ "power" VNone (-4001); Prop_ "power" (VBool true) 0])
           [Prop_ "power" VNone (-4001)] [] (Prop_ "power" (VBool true) 0)
           [Prop_ "power" VNone (-4001); Prop_ "power" (VBool true) 0]).
  - reflexivity.
  - cbn. tauto.
Defined.

(** A failed [light] with code -4001 against a [light] reported as null. *)
Lemma status_forgets_codes_witness :
  foldl Fan1C.status_step ∅
    ([Prop_ "power" (VInt 1) 0] ++ Prop_ "light" (VInt 7) (-4001) :: [])%list =
  foldl Fan1C.status_step ∅
    ([Prop_ "power" (VInt 1) 0] ++ Prop_ "light" VNone 0 :: [])%list.
Proof.
  apply (status_forgets_codes [Prop_ "power" (VInt 1) 0] [] "light" (VInt 7) (-4001)).
  discriminate.
Defined.

(** The simulated device answers for the whole table, so after a query no
    accessor raises. *)
Lemma status_accessors_follow_answer_witness :
  exists snap : FanStatus1C.t,
    fst (Fan1C.status fan (World [] light_failed_store)) = Ok snap /\
    forall k o, In (k, o) (accessor_outcomes snap) -> o = None.
Proof.
  edestruct (status_accessors_follow_answer fan (World [] light_failed_store))
    as (snap & Hrun & Hall).
  - vm_compute. reflexivity.
  - exists snap. split; [exact Hrun |].
    intros k o Hin. apply (Hall k o Hin).
    unfold accessor_outcomes in Hin. cbn [In] in Hin.
    repeat (destruct Hin as [Hin | Hin]; [injection Hin as <- _; cbn; tauto |]).
    destruct Hin.
Defined.

(** Natural mode on, then a query, on the simulated device. *)
Lemma natural_mode_round_trip_witness :
  exists snap : FanStatus1C.t,
    fst ((Fan1C.set_natural_mode fan true >>= fun _ => Fan1C.status fan)
           (World [] (∅ : gmap string pyval))) = Ok snap /\
    FanStatus1C.mode snap = Ok Nature.
Proof.
  edestruct (natural_mode_round_trip fan true (World [] (∅ : gmap string pyval)))
    as (snap & Hrun & Hmode).
  - vm_compute. reflexivity.
  - vm_compute. reflexivity.
  - apply (bool_decide_unpack _). vm_compute. exact I.
  - cbn. tauto.
  - exists snap. split; [rewrite Hrun; reflexivity | exact Hmode].
Defined.

(** Off, then a query, on the simulated device of the round trip. *)
Lemma power_round_trip_witness :
  exists snap : FanStatus1C.t,
    fst ((Fan1C.off fan >>= fun _ => Fan1C.status fan)
           (World [] round_trip_store)) = Ok snap /\
    FanStatus1C.power snap = Ok "off".
Proof.
  edestruct (power_round_trip fan false (World [] round_trip_store))
    as (snap & Hrun & Hpower & _).
  - vm_compute. reflexivity.
  - vm_compute. reflexivity.
  - apply (bool_decide_unpack _). vm_compute. exact I.
  - cbn. tauto.
  - exists snap. split; [rewrite Hrun; reflexivity | exact Hpower].
Defined.

(** Speed 0 fails validation: no call, and the world is as it was. *)
Lemma setter_calls_iff_valid_witness :
  calls_of (run_setter fan (SetDirectSpeed 0)) (World [] round_trip_store) = [] /\
  exists msg, run_setter fan (SetDirectSpeed 0) (World [] round_trip_store) =
                (Raise (FanException msg), World [] round_trip_store).
Proof.
  destruct (setter_calls_iff_valid fan (SetDirectSpeed 0) (World [] round_trip_store))
    as (Hiff & Hraise & _).
  split.
  - apply Hiff. cbn. lia.
  - apply Hraise. cbn. lia.
Defined.

(** [on] on the simulated device leaves [True] under [power] in the
    device; on a device that is out of reach it raises what the transport
    raises, after the one attempt. *)
Lemma on_off_one_write_witness :
  Fan1C.on fan (World [] (∅ : gmap string pyval)) =
    (Ok (VStr "ok"), World [CSet "power" (VBool true)] (<["power" := VBool true]> ∅)) /\
  Fan1C.off fan (World [] tt) =
    (Raise (DeviceException "timeout"), World [CSet "power" (VBool false)] tt).
Proof.
  split.
  - destruct (proj1 (on_off_one_write fan (World [] (∅ : gmap string pyval))))
      as (_ & Hrun & _).
    rewrite Hrun. reflexivity.
  - destruct (proj2 (on_off_one_write fan (World [] tt))) as (_ & Hrun & _).
    rewrite Hrun. reflexivity.
Defined.
